(** * The XMILE [slider] binding ([xmile_slider.py])

    A shallow embedding of the generated data-binding class [XmileSlider]:
    the declarations of the class (field names, annotations, defaults and
    per-field metadata) as a static table, the behaviour the
    [dataclasses.dataclass(kw_only=True)] decorator gives its instances
    (constructor, attribute access, equality), and a model of the XML
    binding engine that consumes the table. *)

From Stdlib Require Import ZArith String Ascii List Bool.
From Stdlib Require Import DecimalString DecimalPos DecimalZ.
From Stdlib Require Import PrimFloat FloatOps SpecFloat.
From stdpp Require Import base option gmap strings list.

Set Warnings "-register-all".
Local Open Scope string_scope.

(** ** Python side: exceptions, source-level expressions, annotations *)

Inductive exception := TypeError | AttributeError.

Inductive result (A : Type) :=
| Ok (a : A)
| Raise (e : exception).
Arguments Ok {A} a.
Arguments Raise {A} e.

(** The expressions the class body uses as defaults and metadata values:
    the literal [None], a string literal, or a constant of another module
    ([xmile_globals.ISEE_NAMESPACE]). *)
Inductive expr :=
| ENone
| EStr (s : string)
| EGlobal (module_ attr : string).

Global Instance expr_eq_dec : EqDecision expr.
Proof. solve_decision. Defined.

(** Type annotations, as written with [typing.Optional] and [typing.Union];
    a class is named by its module and its name. *)
Inductive pytype :=
| t_bool
| t_int
| t_float
| t_str
| t_class (module_ cls : string)
| Union (ts : list pytype)
| Optional (t : pytype).

Fixpoint pytype_eqb (a b : pytype) : bool :=
  match a, b with
  | t_bool, t_bool | t_int, t_int | t_float, t_float | t_str, t_str => true
  | t_class m c, t_class m' c' => String.eqb m m' && String.eqb c c'
  | Union ts, Union ts' =>
      (fix go (l l' : list pytype) : bool :=
         match l, l' with
         | [], [] => true
         | x :: l, y :: l' => pytype_eqb x y && go l l'
         | _, _ => false
         end) ts ts'
  | Optional t, Optional t' => pytype_eqb t t'
  | _, _ => false
  end.

Module dataclasses.

(** What [dataclasses.fields] reports for one field of a dataclass. *)
Record Field := {
  name : string;
  type : pytype;
  default : expr;
  metadata : gmap string expr;
  kw_only : bool
}.

End dataclasses.
Export dataclasses.

(** ** The module [xmile_slider] *)

Definition __NAMESPACE__ : string :=
  "http://docs.oasis-open.org/xmile/ns/XMILE/v1.0".

Definition XMILE_NAMESPACE_ref : expr := EGlobal "xmile_globals" "XMILE_NAMESPACE".
Definition ISEE_NAMESPACE_ref : expr := EGlobal "xmile_globals" "ISEE_NAMESPACE".

Definition XmileFormat_t : pytype := t_class "xmile_format" "XmileFormat".
Definition XmileEntity_t : pytype := t_class "xmile_entity" "XmileEntity".
Definition XmileResetTo_t : pytype := t_class "xmile_reset_to" "XmileResetTo".

Module XmileSlider.

Module Meta.
Definition name : string := "slider".
Definition namespace : expr := XMILE_NAMESPACE_ref.
End Meta.

(** [dataclasses.field(default=None, metadata={"type": "Attribute"})] under
    [kw_only=True]. *)
Definition attribute (n : string) (t : pytype) : Field :=
  {| name := n; type := t; default := ENone;
     metadata := {[ "type" := EStr "Attribute" ]}; kw_only := true |}.

(** The same with ["namespace": xmile_globals.ISEE_NAMESPACE]. *)
Definition isee_attribute (n : string) (t : pytype) : Field :=
  {| name := n; type := t; default := ENone;
     metadata := {[ "type" := EStr "Attribute";
                    "namespace" := ISEE_NAMESPACE_ref ]};
     kw_only := true |}.

(** [dataclasses.field(default=None, metadata={"type": "Element"})]. *)
Definition element (n : string) (t : pytype) : Field :=
  {| name := n; type := t; default := ENone;
     metadata := {[ "type" := EStr "Element" ]}; kw_only := true |}.

Definition show_name := attribute "show_name" (Optional t_bool).
Definition conditional_entity := isee_attribute "conditional_entity" (Optional t_str).
Definition increment := attribute "increment" (Optional (Union [t_int; t_float])).
Definition width := attribute "width" (Optional (Union [t_int; t_float])).
Definition label_side := attribute "label_side" (Optional t_str).
Definition y := attribute "y" (Optional (Union [t_float; t_int])).
Definition wrap_title := attribute "wrap_title" (Optional t_bool).
Definition always_show_hover_tip := isee_attribute "always_show_hover_tip" (Optional t_bool).
Definition input_expands := attribute "input_expands" (Optional t_bool).
Definition title := attribute "title" (Optional t_str).
Definition x := attribute "x" (Optional (Union [t_float; t_int])).
Definition uid := attribute "uid" (Optional t_int).
Definition show_hover_tip := isee_attribute "show_hover_tip" (Optional t_str).
Definition vertical := attribute "vertical" (Optional t_bool).
Definition fancy_appearance := isee_attribute "fancy_appearance" (Optional t_bool).
Definition height := attribute "height" (Optional (Union [t_int; t_float])).
Definition max := attribute "max" (Optional (Union [t_int; t_float])).
Definition color := attribute "color" (Optional t_str).
Definition font_weight := attribute "font_weight" (Optional t_str).
Definition font_color := attribute "font_color" (Optional t_str).
Definition background := attribute "background" (Optional t_str).
Definition font_family := attribute "font_family" (Optional t_str).
Definition font_size := attribute "font_size" (Optional t_str).
Definition num_ticks := attribute "num_ticks" (Optional t_int).
Definition input_width := attribute "input_width" (Optional t_int).
Definition navigate_to := isee_attribute "navigate_to" (Optional t_bool).
Definition min := attribute "min" (Optional (Union [t_int; t_float])).
Definition z_index := attribute "z_index" (Optional t_int).
Definition format := element "format" (Optional XmileFormat_t).
Definition entity := element "entity" (Optional XmileEntity_t).
Definition reset_to := element "reset_to" (Optional XmileResetTo_t).

(** The fields in declaration order, as [dataclasses.fields] lists them. *)
Definition fields : list Field :=
  [ show_name; conditional_entity; increment; width; label_side; y;
    wrap_title; always_show_hover_tip; input_expands; title; x; uid;
    show_hover_tip; vertical; fancy_appearance; height; max; color;
    font_weight; font_color; background; font_family; font_size;
    num_ticks; input_width; navigate_to; min; z_index;
    format; entity; reset_to ].

Definition field_names : list string := name <$> fields.

End XmileSlider.

(** ** Reading the table *)

(** The XML role recorded under the metadata key ["type"]. *)
Definition xml_role (f : Field) : option expr := metadata f !! "type".

(** The per-field namespace recorded under the metadata key ["namespace"]. *)
Definition field_namespace (f : Field) : option expr := metadata f !! "namespace".

Definition is_attribute (f : Field) : bool :=
  bool_decide (xml_role f = Some (EStr "Attribute")).
Definition is_element (f : Field) : bool :=
  bool_decide (xml_role f = Some (EStr "Element")).

(** The kinds of scalar the data model distinguishes. *)
Inductive scalar_kind := boolean | numeric | integer | text.

Global Instance scalar_kind_eq_dec : EqDecision scalar_kind.
Proof. solve_decision. Defined.

(** An annotation is scalar when it is [Optional] of [bool], [int], [str] or
    of the union of [int] and [float] (in either order). *)
Definition kind_of (t : pytype) : option scalar_kind :=
  match t with
  | Optional t_bool => Some boolean
  | Optional t_int => Some integer
  | Optional t_str => Some text
  | Optional (Union [t_int; t_float]) | Optional (Union [t_float; t_int]) =>
      Some numeric
  | _ => None
  end.

Definition names_of_kind (k : scalar_kind) : list string :=
  name <$> filter (λ f, kind_of (type f) = Some k) XmileSlider.fields.

Definition scalar_names : list string :=
  name <$> filter (λ f, is_Some (kind_of (type f))) XmileSlider.fields.

(** The enumeration of the data model, in the words of the specification. *)
Definition data_model (k : scalar_kind) : list string :=
  match k with
  | boolean => [ "show_name"; "wrap_title"; "always_show_hover_tip";
                 "input_expands"; "vertical"; "fancy_appearance"; "navigate_to" ]
  | numeric => [ "increment"; "width"; "y"; "height"; "max"; "min"; "x" ]
  | integer => [ "uid"; "num_ticks"; "input_width"; "z_index" ]
  | text => [ "label_side"; "title"; "show_hover_tip"; "color"; "font_weight";
              "font_color"; "background"; "font_family"; "font_size" ]
  end.

Definition vendor_fields : list string :=
  [ "always_show_hover_tip"; "show_hover_tip"; "conditional_entity";
    "fancy_appearance"; "navigate_to" ].

(** ** XML documents *)

(** A qualified name: an optional namespace URI and a local name. *)
Abbreviation qname := (option string * string)%type.

(** Modelled from the spec: the XML shape the external (de)serializer produces
    and consumes, which is not part of this file. An element has a tag,
    attributes [name="value"] on the opening tag (a finite map, as attribute
    names are unique and unordered) and nested child tags in order. *)
Inductive xml_element :=
| Elem (tag : qname) (attributes : gmap qname string) (children : list xml_element).

Definition tag (e : xml_element) : qname := let 'Elem t _ _ := e in t.
Definition attributes (e : xml_element) : gmap qname string := let 'Elem _ a _ := e in a.
Definition children (e : xml_element) : list xml_element := let 'Elem _ _ c := e in c.

(** Modelled from the spec: what the slider needs of a sibling record class
    ([XmileFormat], [XmileEntity], [XmileResetTo], whose modules are not part of
    this file): its [__eq__], and the content the engine writes for an
    instance and reads an instance from. *)
Class Binding (A : Type) := {
  binding_eq : A → A → bool;
  write_content : A → gmap qname string * list xml_element;
  read_content : gmap qname string → list xml_element → option A
}.

(** Modelled from the spec: the lexical form of a floating-point number in XML
    text, which the external engine fixes. *)
Class FloatLexical := {
  float_to_text : float → string;
  float_of_text : string → option float
}.

(** The constants of the module [xmile_globals], which is not part of this
    file. *)
Record xmile_globals := {
  XMILE_NAMESPACE : string;
  ISEE_NAMESPACE : string
}.

(** Modelled from the spec: the integer lexical form of the engine, which is
    not part of this file: decimal digits, without a decimal point. *)
Definition int_to_text (z : Z) : string := NilZero.string_of_int (Z.to_int z).

(** Modelled from the spec: reading the integer lexical form of the engine. *)
Definition int_of_text (s : string) : option Z := Z.of_int <$> NilZero.int_of_string s.

(** Modelled from the spec: the boolean lexical form of the engine, which is
    not part of this file; [true] and [false] are written. *)
Definition bool_to_text (b : bool) : string := if b then "true" else "false".

(** Modelled from the spec: reading the XML boolean lexical space,
    [true]/[false] or [1]/[0]. *)
Definition bool_of_text (s : string) : option bool :=
  if String.eqb s "true" || String.eqb s "1" then Some true
  else if String.eqb s "false" || String.eqb s "0" then Some false
  else None.

(** Whether a character occurs in a text. *)
Fixpoint has_char (c : ascii) (s : string) : bool :=
  match s with
  | EmptyString => false
  | String a s' => Ascii.eqb a c || has_char c s'
  end.

(** Python's [int == float]: the comparison is exact. *)
Definition int_float_eq (z : Z) (f : float) : bool :=
  match Prim2SF f with
  | S754_zero _ => (z =? 0)%Z
  | S754_finite s m e =>
      let mz := if s then Z.neg m else Z.pos m in
      if (0 <=? e)%Z then (z =? mz * 2 ^ e)%Z else (z * 2 ^ (- e) =? mz)%Z
  | _ => false
  end.

(** ** A sample environment

    Concrete stand-ins for the parts that are parameters of the development,
    used to run it on examples: the constants of [xmile_globals], a record
    class without content, a record class holding the name of a model
    variable, and a lexical form for the floats of the examples. *)

Definition sample_globals : xmile_globals :=
  {| XMILE_NAMESPACE := __NAMESPACE__; ISEE_NAMESPACE := "urn:example:isee" |}.

Global Instance empty_binding : Binding unit :=
  {| binding_eq := λ _ _, true;
     write_content := λ _, (∅, []);
     read_content := λ _ _, Some tt |}.

Global Instance variable_binding : Binding string :=
  {| binding_eq := String.eqb;
     write_content := λ s, ({[ (None, "name") := s ]}, []);
     read_content := λ a _, a !! (None, "name") |}.

Global Instance sample_float_lexical : FloatLexical :=
  {| float_to_text := λ x,
       if PrimFloat.eqb x 5.5 then "5.5"
       else if PrimFloat.eqb x 0.25 then "0.25"
       else "NaN";
     float_of_text := λ s,
       if String.eqb s "5.5" then Some 5.5%float
       else if String.eqb s "0.25" then Some 0.25%float
       else if String.eqb s "NaN" then Some nan
       else None |}.

Section Slider.

Context (XmileFormat XmileEntity XmileResetTo : Type).
Context `{!Binding XmileFormat, !Binding XmileEntity, !Binding XmileResetTo}.
Context `{!FloatLexical}.
Variable globals : xmile_globals.

(** *** Values and instances *)

(** The Python values a field of a slider can hold. *)
Inductive pyval :=
| PNone
| PBool (b : bool)
| PInt (z : Z)
| PFloat (f : float)
| PStr (s : string)
| PFormat (o : XmileFormat)
| PEntity (o : XmileEntity)
| PResetTo (o : XmileResetTo).

(** An instance is its [__dict__]; the class is not frozen and has no
    [__slots__]. *)
Record XmileSlider := Object { __dict__ : gmap string pyval }.

Definition eval (e : expr) : option pyval :=
  match e with
  | ENone => Some PNone
  | EStr s => Some (PStr s)
  | EGlobal "xmile_globals" "XMILE_NAMESPACE" => Some (PStr (XMILE_NAMESPACE globals))
  | EGlobal "xmile_globals" "ISEE_NAMESPACE" => Some (PStr (ISEE_NAMESPACE globals))
  | EGlobal _ _ => None
  end.

Definition eval_str (e : expr) : option string :=
  match eval e with
  | Some (PStr s) => Some s
  | _ => None
  end.

Definition field_default (f : Field) : pyval :=
  match eval (default f) with
  | Some v => v
  | None => PNone
  end.

(** The argument the generated [__init__] binds to the parameter of [f]. *)
Definition argument (kwargs : gmap string pyval) (f : Field) : pyval :=
  match kwargs !! name f with
  | Some v => v
  | None => field_default f
  end.

(** The generated [__init__(self, *, show_name=None, ...)]: every parameter
    is keyword-only, an unexpected keyword is a [TypeError], and the body
    assigns the fields in declaration order. *)
Definition __init__ (args : list pyval) (kwargs : gmap string pyval)
  : result XmileSlider :=
  match args with
  | _ :: _ => Raise TypeError
  | [] =>
      if decide (dom kwargs ⊆ (list_to_set XmileSlider.field_names : gset string))
      then Ok (Object (foldl (λ d f, <[name f := argument kwargs f]> d) ∅
                         XmileSlider.fields))
      else Raise TypeError
  end.

(** A field default is also a class attribute. *)
Definition class_attr (n : string) : option pyval :=
  field_default <$> find (λ f, String.eqb (name f) n) XmileSlider.fields.

Definition getattr (self : XmileSlider) (n : string) : result pyval :=
  match __dict__ self !! n with
  | Some v => Ok v
  | None =>
      match class_attr n with
      | Some v => Ok v
      | None => Raise AttributeError
      end
  end.

Definition setattr (self : XmileSlider) (n : string) (v : pyval)
  : result XmileSlider :=
  Ok (Object (<[n := v]> (__dict__ self))).

(** [self.f] for a declared field [f]. *)
Definition field_value (self : XmileSlider) (f : Field) : pyval :=
  match __dict__ self !! name f with
  | Some v => v
  | None => field_default f
  end.

(** *** Equality *)

(** Python's [==] on the values above. [bool] is a subclass of [int];
    numbers compare by value; [None] equals only [None]. *)
Definition py_eq (a b : pyval) : bool :=
  match a, b with
  | PNone, PNone => true
  | PBool a, PBool b => Bool.eqb a b
  | PBool a, PInt z | PInt z, PBool a => (Z.b2z a =? z)%Z
  | PBool a, PFloat f | PFloat f, PBool a => int_float_eq (Z.b2z a) f
  | PInt a, PInt b => (a =? b)%Z
  | PInt z, PFloat f | PFloat f, PInt z => int_float_eq z f
  | PFloat a, PFloat b => PrimFloat.eqb a b
  | PStr a, PStr b => String.eqb a b
  | PFormat a, PFormat b => binding_eq a b
  | PEntity a, PEntity b => binding_eq a b
  | PResetTo a, PResetTo b => binding_eq a b
  | _, _ => false
  end.

(** The generated [__eq__] on two instances of the class: the fields are
    compared in declaration order. *)
Definition XmileSlider_eq (a b : XmileSlider) : bool :=
  forallb (λ f, py_eq (field_value a f) (field_value b f)) XmileSlider.fields.

(** *** Typing of values *)

Fixpoint has_type (v : pyval) (t : pytype) : bool :=
  match t with
  | t_bool => match v with PBool _ => true | _ => false end
  | t_int => match v with PInt _ => true | _ => false end
  | t_float => match v with PFloat _ => true | _ => false end
  | t_str => match v with PStr _ => true | _ => false end
  | t_class _ _ =>
      match v with
      | PFormat _ => pytype_eqb t XmileFormat_t
      | PEntity _ => pytype_eqb t XmileEntity_t
      | PResetTo _ => pytype_eqb t XmileResetTo_t
      | _ => false
      end
  | Union ts => existsb (has_type v) ts
  | Optional t' => match v with PNone => true | _ => has_type v t' end
  end.

(** An instance as the constructor leaves it, populated according to the
    annotations: its attributes are exactly the declared fields and each is
    unset or holds a value of its annotated type. *)
Definition conforms (self : XmileSlider) : Prop :=
  dom (__dict__ self) = (list_to_set XmileSlider.field_names : gset string) ∧
  Forall (λ f, has_type (field_value self f) (type f) = true) XmileSlider.fields.

(** *** The binding engine *)

(** The external (de)serializer is not part of this file. The definitions of
    this part model it from the specification: it consults the static
    metadata of each field, the XML role under ["type"] and the per-field
    namespace under ["namespace"], and the tag name and namespace of [Meta]. *)

(** Modelled from the spec: the tag of the element the engine writes for a
    slider, the name and namespace of [Meta]. *)
Definition slider_qname : qname :=
  (eval_str XmileSlider.Meta.namespace, XmileSlider.Meta.name).

(** Modelled from the spec: the name the engine gives the attribute of a
    field; it carries the namespace the field is tagged with, none
    otherwise. *)
Definition attribute_qname (f : Field) : qname :=
  (field_namespace f ≫= eval_str, name f).

(** Modelled from the spec: the tag the engine gives the child element of a
    field, in the primary namespace. *)
Definition child_qname (f : Field) : qname :=
  (eval_str XmileSlider.Meta.namespace, name f).

(** Modelled from the spec: the text the engine writes for a scalar value; an
    integer is written in integer form and a float in floating-point form. *)
Definition scalar_text (v : pyval) : option string :=
  match v with
  | PBool b => Some (bool_to_text b)
  | PInt z => Some (int_to_text z)
  | PFloat x => Some (float_to_text x)
  | PStr s => Some s
  | _ => None
  end.

(** Modelled from the spec: the content the engine writes for a nested
    record. *)
Definition object_content (v : pyval)
  : option (gmap qname string * list xml_element) :=
  match v with
  | PFormat o => Some (write_content o)
  | PEntity o => Some (write_content o)
  | PResetTo o => Some (write_content o)
  | _ => None
  end.

(** Modelled from the spec: what the engine writes for one field. An
    unset field contributes nothing; an Attribute field one attribute on the
    opening tag; an Element field one child tag. *)
Definition emit (f : Field) (v : pyval)
  : option (gmap qname string * list xml_element) :=
  match v with
  | PNone => Some (∅, [])
  | _ =>
      if is_attribute f then
        s ← scalar_text v; Some ({[ attribute_qname f := s ]}, [])
      else if is_element f then
        c ← object_content v; Some (∅, [Elem (child_qname f) c.1 c.2])
      else None
  end.

(** Modelled from the spec: the engine walks the fields in declaration
    order. *)
Fixpoint write_fields (self : XmileSlider) (l : list Field)
  : option (gmap qname string * list xml_element) :=
  match l with
  | [] => Some (∅, [])
  | f :: l =>
      p ← emit f (field_value self f);
      rest ← write_fields self l;
      Some (p.1 ∪ rest.1, (p.2 ++ rest.2)%list)
  end.

(** Modelled from the spec: serialization of a slider by the engine. *)
Definition write (self : XmileSlider) : option xml_element :=
  c ← write_fields self XmileSlider.fields;
  Some (Elem slider_qname c.1 c.2).

(** Modelled from the spec: the value the engine reads a text as under an
    annotation.
    Where both [int] and [float] are admitted, text in integer form is an
    integer and other text is tried as the remaining members in order. *)
Fixpoint parse_text (t : pytype) (s : string) : option pyval :=
  match t with
  | t_bool => PBool <$> bool_of_text s
  | t_int => PInt <$> int_of_text s
  | t_float => PFloat <$> float_of_text s
  | t_str => Some (PStr s)
  | t_class _ _ => None
  | Union ts =>
      match (if existsb (pytype_eqb t_int) ts then PInt <$> int_of_text s else None) with
      | Some v => Some v
      | None =>
          (fix first (l : list pytype) : option pyval :=
             match l with
             | [] => None
             | t' :: l =>
                 match parse_text t' s with
                 | Some v => Some v
                 | None => first l
                 end
             end) ts
      end
  | Optional t' => parse_text t' s
  end.

(** Modelled from the spec: the nested record the engine reads a child
    element as under an annotation. *)
Fixpoint parse_object (t : pytype) (e : xml_element) : option pyval :=
  match t with
  | Optional t' => parse_object t' e
  | t_class _ _ =>
      if pytype_eqb t XmileFormat_t then
        PFormat <$> read_content (attributes e) (children e)
      else if pytype_eqb t XmileEntity_t then
        PEntity <$> read_content (attributes e) (children e)
      else if pytype_eqb t XmileResetTo_t then
        PResetTo <$> read_content (attributes e) (children e)
      else None
  | _ => None
  end.

(** Modelled from the spec: what the engine reads for one field; [Some
    None] when the attribute or child is absent, [None] when its content
    cannot be read. *)
Definition read_field (e : xml_element) (f : Field) : option (option pyval) :=
  if is_attribute f then
    match attributes e !! attribute_qname f with
    | None => Some None
    | Some s => Some <$> parse_text (type f) s
    end
  else if is_element f then
    match find (λ c, bool_decide (tag c = child_qname f)) (children e) with
    | None => Some None
    | Some c => Some <$> parse_object (type f) c
    end
  else None.

(** Modelled from the spec: the keyword arguments the engine collects, walking
    the fields in declaration order. *)
Fixpoint read_fields (e : xml_element) (l : list Field)
  : option (gmap string pyval) :=
  match l with
  | [] => Some ∅
  | f :: l =>
      r ← read_field e f;
      kwargs ← read_fields e l;
      Some (match r with
            | Some v => <[name f := v]> kwargs
            | None => kwargs
            end)
  end.

(** Modelled from the spec: deserialization of a [<slider>] element by the
    engine; the
    instance is constructed from the fields present, and attributes or
    children that no field declares are ignored. *)
Definition read (e : xml_element) : option XmileSlider :=
  if decide (tag e = slider_qname) then
    kwargs ← read_fields e XmileSlider.fields;
    match __init__ [] kwargs with
    | Ok self => Some self
    | Raise _ => None
    end
  else None.

(** The keyword argument a field value corresponds to: none when unset. *)
Definition present (v : pyval) : option pyval :=
  match v with
  | PNone => None
  | _ => Some v
  end.

(** The parts of the engine that are parameters here round-trip the value:
    a float through its text, which is not in integer form, and a nested
    record through its content. *)
Definition lexical_ok (v : pyval) : Prop :=
  match v with
  | PFloat x =>
      float_of_text (float_to_text x) = Some x ∧
      int_of_text (float_to_text x) = None
  | PFormat o => read_content (write_content o).1 (write_content o).2 = Some o
  | PEntity o => read_content (write_content o).1 (write_content o).2 = Some o
  | PResetTo o => read_content (write_content o).1 (write_content o).2 = Some o
  | _ => True
  end.

(** ** Facts about the table *)

Lemma field_names_NoDup : NoDup XmileSlider.field_names.
Proof. compute_done. Qed.

Lemma field_defaults_None :
  Forall (λ f, field_default f = PNone) XmileSlider.fields.
Proof. repeat constructor. Qed.

Lemma field_default_None f : f ∈ XmileSlider.fields → field_default f = PNone.
Proof. intros Hf. by eapply (proj1 (Forall_forall _ _) field_defaults_None). Qed.

Lemma elem_of_field_names f : f ∈ XmileSlider.fields → name f ∈ XmileSlider.field_names.
Proof. intros Hf. unfold XmileSlider.field_names. by apply list_elem_of_fmap_2. Qed.

(** ** Construction and attribute access *)

Section assign.
Variable a : Field → pyval.

Lemma assign_lookup_notin (l : list Field) (d : gmap string pyval) n :
  n ∉ name <$> l →
  foldl (λ d f, <[name f := a f]> d) d l !! n = d !! n.
Proof.
  revert d. induction l as [|g l IH]; intros d Hn; [done|].
  rewrite fmap_cons in Hn. apply not_elem_of_cons in Hn as [Hg Hl].
  simpl. rewrite IH by done. by rewrite lookup_insert_ne.
Qed.

Lemma assign_lookup_in (l : list Field) (d : gmap string pyval) f :
  NoDup (name <$> l) → f ∈ l →
  foldl (λ d f, <[name f := a f]> d) d l !! name f = Some (a f).
Proof.
  revert d. induction l as [|g l IH]; intros d Hnd Hf.
  - by apply elem_of_nil in Hf.
  - rewrite fmap_cons in Hnd. apply NoDup_cons in Hnd as [Hg Hnd]. simpl.
    destruct (decide (name f ∈ name <$> l)) as [Hin|Hout].
    + apply elem_of_cons in Hf as [->|Hf]; [done|]. by apply IH.
    + rewrite assign_lookup_notin by done.
      apply elem_of_cons in Hf as [->|Hf].
      * apply lookup_insert_eq.
      * destruct Hout. by apply list_elem_of_fmap_2.
Qed.
End assign.

Lemma find_field f :
  f ∈ XmileSlider.fields →
  find (λ g, String.eqb (name g) (name f)) XmileSlider.fields = Some f.
Proof.
  pose proof field_names_NoDup as Hnd. unfold XmileSlider.field_names in Hnd.
  induction XmileSlider.fields as [|g l IH]; intros Hf.
  - by apply elem_of_nil in Hf.
  - rewrite fmap_cons in Hnd. apply NoDup_cons in Hnd as [Hg Hnd]. simpl.
    destruct (String.eqb_spec (name g) (name f)) as [Heq|Hne].
    + apply elem_of_cons in Hf as [->|Hf]; [done|].
      destruct Hg. rewrite Heq. by apply list_elem_of_fmap_2.
    + apply elem_of_cons in Hf as [->|Hf]; [done|]. by apply IH.
  Qed.

Lemma getattr_field self f :
  f ∈ XmileSlider.fields → getattr self (name f) = Ok (field_value self f).
Proof.
  intros Hf. unfold getattr, field_value, class_attr.
  destruct (__dict__ self !! name f); [done|]. by rewrite find_field.
Qed.

Lemma init_ok kwargs :
  dom kwargs ⊆ (list_to_set XmileSlider.field_names : gset string) →
  ∃ self, __init__ [] kwargs = Ok self ∧
    dom (__dict__ self) = (list_to_set XmileSlider.field_names : gset string) ∧
    ∀ f, f ∈ XmileSlider.fields → __dict__ self !! name f = Some (argument kwargs f).
Proof.
  intros Hdom. unfold __init__. rewrite decide_True by exact Hdom.
  eexists. split; [reflexivity|]. cbn [__dict__]. split.
  - apply set_eq. intros n. rewrite elem_of_dom, elem_of_list_to_set. split.
    + intros [v Hv]. destruct (decide (n ∈ XmileSlider.field_names)); [done|].
      rewrite assign_lookup_notin in Hv by done. by rewrite lookup_empty in Hv.
    + unfold XmileSlider.field_names. intros (f & -> & Hf)%list_elem_of_fmap.
      rewrite assign_lookup_in; [done|apply field_names_NoDup|done].
  - intros f Hf. apply assign_lookup_in; [apply field_names_NoDup|done].
Qed.

Lemma init_unexpected_keyword args kwargs n :
  n ∉ XmileSlider.field_names → n ∈ dom kwargs →
  __init__ args kwargs = Raise TypeError.
Proof.
  intros Hn Hk. unfold __init__. destruct args; [|done].
  rewrite decide_False; [done|]. intros Hsub. apply Hn.
  apply Hsub in Hk. by apply elem_of_list_to_set in Hk.
Qed.

Lemma write_fields_unset self (l : list Field) :
  Forall (λ f, field_value self f = PNone) l →
  write_fields self l = Some (∅, []).
Proof.
  induction 1 as [|f l Hf _ IH]; [done|].
  cbn [write_fields]. rewrite Hf, IH. cbn. by rewrite (left_id_L ∅ (∪)).
Qed.

(** C6: the constructor called without arguments succeeds and leaves every
    field [None], and such an instance is written as a bare [slider] element
    with no attribute and no child; called with any subset of the fields as
    keywords it succeeds, the fields passed hold the values passed and the
    others are [None]. *)
Theorem construct_any_subset :
  (∃ self, __init__ [] ∅ = Ok self ∧
     Forall (λ f, getattr self (name f) = Ok PNone) XmileSlider.fields ∧
     write self = Some (Elem (Some (XMILE_NAMESPACE globals), "slider") ∅ [])) ∧
  (∀ kwargs : gmap string pyval,
     dom kwargs ⊆ (list_to_set XmileSlider.field_names : gset string) →
     ∃ self, __init__ [] kwargs = Ok self ∧
       Forall (λ f, getattr self (name f) =
                    Ok (match kwargs !! name f with Some v => v | None => PNone end))
         XmileSlider.fields).
Proof.
  assert (Hall : ∀ kwargs : gmap string pyval,
     dom kwargs ⊆ (list_to_set XmileSlider.field_names : gset string) →
     ∃ self, __init__ [] kwargs = Ok self ∧
       Forall (λ f, getattr self (name f) =
                    Ok (match kwargs !! name f with Some v => v | None => PNone end))
         XmileSlider.fields).
  { intros kwargs Hdom. destruct (init_ok kwargs Hdom) as (self & Hinit & _ & Hget).
    exists self. split; [exact Hinit|]. apply Forall_forall. intros f Hf.
    rewrite getattr_field by done. unfold field_value. rewrite (Hget f Hf).
    unfold argument. by rewrite field_default_None. }
  split; [|exact Hall].
  destruct (Hall ∅) as (self & Hinit & Hget).
  { rewrite dom_empty_L. apply empty_subseteq. }
  exists self. split; [exact Hinit|].
  assert (Hnone : Forall (λ f, getattr self (name f) = Ok PNone) XmileSlider.fields).
  { eapply Forall_impl; [exact Hget|]. intros f Hf. cbv beta in Hf. by rewrite lookup_empty in Hf. }
  split; [exact Hnone|]. unfold write. rewrite write_fields_unset; [done|].
  apply Forall_forall. intros f Hf.
  pose proof (proj1 (Forall_forall _ _) Hnone f Hf) as Hv. cbv beta in Hv.
  rewrite getattr_field in Hv by done. by injection Hv.
Qed.


(** C9: assigning one attribute changes what that attribute reads as and
    nothing else: every other attribute, and so every other field, reads as
    before. *)
Theorem setattr_frame self n v m :
  n ≠ m →
  ∃ self', setattr self n v = Ok self' ∧
    getattr self' n = Ok v ∧
    getattr self' m = getattr self m ∧
    Forall (λ f, name f = n ∨ field_value self' f = field_value self f)
      XmileSlider.fields.
Proof.
  intros Hne. eexists. split; [reflexivity|]. split; [|split].
  - unfold getattr. cbn [__dict__]. by rewrite lookup_insert_eq.
  - unfold getattr. cbn [__dict__]. by rewrite lookup_insert_ne.
  - apply Forall_forall. intros f _. destruct (decide (name f = n)) as [|Hf]; [by left|].
    right. unfold field_value. cbn [__dict__]. by rewrite lookup_insert_ne.
Qed.


(** C5: the tag name and the namespace of the class are constants of the
    class, ["slider"] and the constant [XMILE_NAMESPACE] of [xmile_globals];
    the module's own namespace constant is the XMILE v1.0 URI; and the
    constructor has no keyword that would set either for an instance. *)
Theorem meta_is_class_constant :
  XmileSlider.Meta.name = "slider" ∧
  XmileSlider.Meta.namespace = EGlobal "xmile_globals" "XMILE_NAMESPACE" ∧
  eval_str XmileSlider.Meta.namespace = Some (XMILE_NAMESPACE globals) ∧
  __NAMESPACE__ = "http://docs.oasis-open.org/xmile/ns/XMILE/v1.0" ∧
  Forall (λ n, (n ∉ XmileSlider.field_names) ∧
               (∀ args (kwargs : gmap string pyval) v,
                  __init__ args (<[n := v]> kwargs) = Raise TypeError))
    ["Meta"; "name"; "namespace"].
Proof.
  repeat split; try reflexivity.
  assert (Hno : Forall (λ n, n ∉ XmileSlider.field_names) ["Meta"; "name"; "namespace"])
    by compute_done.
  eapply Forall_impl; [exact Hno|]. intros n Hn. split; [exact Hn|].
  intros args kwargs v. apply (init_unexpected_keyword _ _ n); [exact Hn|].
  rewrite dom_insert_L. set_solver.
Qed.

(** ** The lexical forms *)

Lemma int_text_roundtrip z : int_of_text (int_to_text z) = Some z.
Proof.
  unfold int_of_text, int_to_text. rewrite NilZero.isi.
  - cbn. by rewrite DecimalZ.of_to.
  - destruct z; cbn; [discriminate| |discriminate].
    intros [= E]. by apply DecimalPos.Unsigned.to_uint_nonnil in E.
  - destruct z; cbn; [discriminate|discriminate|].
    intros [= E]. by apply DecimalPos.Unsigned.to_uint_nonnil in E.
Qed.

Lemma bool_text_roundtrip b : bool_of_text (bool_to_text b) = Some b.
Proof. by destruct b. Qed.

Lemma uint_text_no_point d : has_char "." (NilEmpty.string_of_uint d) = false.
Proof. induction d; cbn; auto. Qed.

Lemma int_text_no_point z : has_char "." (int_to_text z) = false.
Proof.
  unfold int_to_text. destruct (Z.to_int z) as [d|d]; cbn;
    destruct d; cbn; auto using uint_text_no_point.
Qed.

(** ** What one field contributes *)

Lemma emit_attribute_other f v p ns n :
  emit f v = Some p → n ≠ name f → p.1 !! (ns, n) = None.
Proof.
  unfold emit. intros Hp Hn.
  destruct v; [by simplify_eq/=|..];
    destruct (is_attribute f), (is_element f); simplify_option_eq; try done;
    apply lookup_singleton_ne; unfold attribute_qname; congruence.
Qed.

Lemma emit_attribute_self f v p :
  is_attribute f = true → emit f v = Some p →
  p.1 !! attribute_qname f = scalar_text v.
Proof.
  unfold emit. intros Ha Hp. rewrite Ha in Hp.
  destruct v; simplify_option_eq; try done; apply lookup_singleton_eq.
Qed.

Lemma emit_children_tag f v p :
  emit f v = Some p → Forall (λ c, (tag c).2 = name f) p.2.
Proof.
  unfold emit. intros Hp.
  destruct v; [by simplify_eq/=|..];
    destruct (is_attribute f), (is_element f); simplify_option_eq;
    by repeat constructor.
Qed.

Lemma emit_children_self f v p :
  is_attribute f = false → is_element f = true → emit f v = Some p →
  find (λ c, bool_decide (tag c = child_qname f)) p.2
  = (λ c, Elem (child_qname f) c.1 c.2) <$> object_content v.
Proof.
  unfold emit. intros Ha He Hp. rewrite Ha, He in Hp.
  destruct v; simplify_option_eq; try done;
    cbn; by rewrite bool_decide_eq_true_2.
Qed.

Lemma find_app {A} (P : A → bool) (l1 l2 : list A) :
  find P (l1 ++ l2) = match find P l1 with Some x => Some x | None => find P l2 end.
Proof. induction l1 as [|x l1 IH]; [done|]. cbn. by destruct (P x). Qed.

Lemma find_other_tag (q : qname) (l : list xml_element) :
  Forall (λ c, (tag c).2 ≠ q.2) l →
  find (λ c, bool_decide (tag c = q)) l = None.
Proof.
  induction 1 as [|c l Hc _ IH]; [done|]. cbn.
  rewrite bool_decide_eq_false_2; [done|]. intros Heq. apply Hc. by rewrite Heq.
Qed.

(** ** What the fields contribute together *)

Lemma write_fields_attribute_notin self l p ns n :
  write_fields self l = Some p → n ∉ name <$> l → p.1 !! (ns, n) = None.
Proof.
  revert p. induction l as [|g l IH]; intros p Hp Hn.
  - simplify_eq/=. apply lookup_empty.
  - cbn [write_fields] in Hp. rewrite fmap_cons in Hn.
    apply not_elem_of_cons in Hn as [Hg Hl]. simplify_option_eq.
    apply lookup_union_None_2; [by eapply emit_attribute_other|by apply IH].
Qed.

Lemma write_fields_children_notin self l p ns n :
  write_fields self l = Some p → n ∉ name <$> l →
  find (λ c, bool_decide (tag c = (ns, n))) p.2 = None.
Proof.
  revert p. induction l as [|g l IH]; intros p Hp Hn.
  - by simplify_eq/=.
  - cbn [write_fields] in Hp. rewrite fmap_cons in Hn.
    apply not_elem_of_cons in Hn as [Hg Hl]. simplify_option_eq.
    rewrite find_app, (IH _ eq_refl Hl). rewrite find_other_tag; [done|].
    eapply Forall_impl; [by eapply emit_children_tag|]. cbn. congruence.
Qed.

Lemma write_fields_attribute self l p f :
  NoDup (name <$> l) → write_fields self l = Some p →
  f ∈ l → is_attribute f = true →
  p.1 !! attribute_qname f = scalar_text (field_value self f).
Proof.
  revert p. induction l as [|g l IH]; intros p Hnd Hp Hf Ha.
  - by apply elem_of_nil in Hf.
  - cbn [write_fields] in Hp. rewrite fmap_cons in Hnd.
    apply NoDup_cons in Hnd as [Hg Hnd]. simplify_option_eq.
    destruct (decide (name f ∈ name <$> l)) as [Hin|Hout].
    + apply elem_of_cons in Hf as [->|Hf]; [done|].
      rewrite lookup_union_r; [by apply IH|].
      eapply emit_attribute_other; [done|]. intros Heq. apply Hg. by rewrite <- Heq.
    + apply elem_of_cons in Hf as [->|Hf].
      * rewrite <- (emit_attribute_self g _ _ Ha) by done.
        apply lookup_union_l. by eapply write_fields_attribute_notin.
      * destruct Hout. by apply list_elem_of_fmap_2.
Qed.

Lemma write_fields_child self l p f :
  NoDup (name <$> l) → write_fields self l = Some p →
  f ∈ l → is_attribute f = false → is_element f = true →
  find (λ c, bool_decide (tag c = child_qname f)) p.2
  = (λ c, Elem (child_qname f) c.1 c.2) <$> object_content (field_value self f).
Proof.
  revert p. induction l as [|g l IH]; intros p Hnd Hp Hf Ha He.
  - by apply elem_of_nil in Hf.
  - cbn [write_fields] in Hp. rewrite fmap_cons in Hnd.
    apply NoDup_cons in Hnd as [Hg Hnd]. simplify_option_eq.
    rewrite find_app.
    destruct (decide (name f ∈ name <$> l)) as [Hin|Hout].
    + apply elem_of_cons in Hf as [->|Hf]; [done|].
      rewrite find_other_tag; [by apply IH|].
      eapply Forall_impl; [by eapply emit_children_tag|]. cbn.
      intros c Hc Heq. apply Hg. rewrite <- Hc, Heq. cbn. by apply list_elem_of_fmap_2.
    + apply elem_of_cons in Hf as [->|Hf].
      * rewrite (emit_children_self g _ _ Ha He) by done.
        destruct (object_content _); [done|]. cbn.
        by eapply write_fields_children_notin.
      * destruct Hout. by apply list_elem_of_fmap_2.
Qed.

Lemma write_fields_total self l :
  Forall (λ f, is_Some (emit f (field_value self f))) l →
  is_Some (write_fields self l).
Proof.
  induction 1 as [|f l [p Hp] _ [rest Hrest]]; [done|].
  cbn [write_fields]. rewrite Hp, Hrest. done.
Qed.

(** ** Reading a value back under its annotation *)

Lemma kind_of_inv t k :
  kind_of t = Some k →
  t = Optional t_bool ∨ t = Optional t_int ∨ t = Optional t_str ∨
  t = Optional (Union [t_int; t_float]) ∨ t = Optional (Union [t_float; t_int]).
Proof.
  unfold kind_of. intros Hk. repeat (case_match; try discriminate); subst; auto 10.
Qed.

Lemma scalar_roundtrip t k v :
  kind_of t = Some k → has_type v t = true → lexical_ok v →
  match scalar_text v with
  | Some s => parse_text t s = Some v
  | None => v = PNone
  end.
Proof.
  intros Hk Ht Hl.
  destruct (kind_of_inv _ _ Hk) as [-> | [-> | [-> | [-> | ->]]]];
    destruct v; try discriminate; try reflexivity; cbn in *.
  - by rewrite bool_text_roundtrip.
  - by rewrite int_text_roundtrip.
  - by rewrite int_text_roundtrip.
  - destruct Hl as [Hf Hi]. by rewrite Hi, Hf.
  - by rewrite int_text_roundtrip.
  - destruct Hl as [Hf Hi]. by rewrite Hi, Hf.
Qed.

Lemma pytype_eqb_class t m c :
  pytype_eqb t (Optional (t_class m c)) = true → t = Optional (t_class m c).
Proof.
  destruct t as [| | | | | |t]; try discriminate.
  destruct t as [| | | |m' c'| |]; try discriminate. cbn.
  intros [Hm Hc]%andb_prop. apply String.eqb_eq in Hm, Hc. by subst.
Qed.

Lemma object_roundtrip t v q :
  pytype_eqb t (Optional XmileFormat_t) || pytype_eqb t (Optional XmileEntity_t)
    || pytype_eqb t (Optional XmileResetTo_t) = true →
  has_type v t = true → lexical_ok v →
  match object_content v with
  | Some c => parse_object t (Elem q c.1 c.2) = Some v
  | None => v = PNone
  end.
Proof.
  intros Hc Ht Hl.
  apply orb_prop in Hc as [Hc|Hc]; [apply orb_prop in Hc as [Hc|Hc]|];
    apply pytype_eqb_class in Hc; subst t;
    destruct v; try discriminate; try reflexivity; cbn in *; by rewrite Hl.
Qed.

Lemma scalar_text_present v s : scalar_text v = Some s → present v = Some v.
Proof. by destruct v. Qed.

Lemma object_content_present v c : object_content v = Some c → present v = Some v.
Proof. by destruct v. Qed.

(** Every field is an attribute of scalar type or an element of one of the
    three record classes. *)
Lemma fields_roles :
  Forall (λ f,
      (is_attribute f = true ∧ is_Some (kind_of (type f))) ∨
      (is_attribute f = false ∧ is_element f = true ∧
       pytype_eqb (type f) (Optional XmileFormat_t)
         || pytype_eqb (type f) (Optional XmileEntity_t)
         || pytype_eqb (type f) (Optional XmileResetTo_t) = true))
    XmileSlider.fields.
Proof. compute_done. Qed.

Lemma scalar_text_typed t k v :
  kind_of t = Some k → has_type v t = true → v = PNone ∨ is_Some (scalar_text v).
Proof.
  intros Hk Ht.
  destruct (kind_of_inv _ _ Hk) as [-> | [-> | [-> | [-> | ->]]]];
    destruct v; try discriminate; eauto.
Qed.

Lemma object_content_typed t v :
  pytype_eqb t (Optional XmileFormat_t) || pytype_eqb t (Optional XmileEntity_t)
    || pytype_eqb t (Optional XmileResetTo_t) = true →
  has_type v t = true → v = PNone ∨ is_Some (object_content v).
Proof.
  intros Hc Ht.
  apply orb_prop in Hc as [Hc|Hc]; [apply orb_prop in Hc as [Hc|Hc]|];
    apply pytype_eqb_class in Hc; subst t;
    destruct v; try discriminate; eauto.
Qed.

Lemma emit_total self f :
  f ∈ XmileSlider.fields →
  has_type (field_value self f) (type f) = true →
  is_Some (emit f (field_value self f)).
Proof.
  intros Hf Ht. unfold emit.
  destruct (proj1 (Forall_forall _ _) fields_roles f Hf)
    as [[Ha [k Hk]]|(Ha & He & Hc)]; rewrite Ha; [|rewrite He].
  - destruct (scalar_text_typed _ _ _ Hk Ht) as [->|[s Hs]]; [done|].
    rewrite Hs. by destruct (field_value self f).
  - destruct (object_content_typed _ _ Hc Ht) as [->|[s Hs]]; [done|].
    rewrite Hs. by destruct (field_value self f).
Qed.

Lemma write_total self :
  Forall (λ f, has_type (field_value self f) (type f) = true) XmileSlider.fields →
  ∃ p, write_fields self XmileSlider.fields = Some p ∧
       write self = Some (Elem slider_qname p.1 p.2).
Proof.
  intros Hty. destruct (write_fields_total self XmileSlider.fields) as [p Hp].
  { apply Forall_forall. intros f Hf. apply emit_total; [done|].
    by apply (proj1 (Forall_forall _ _) Hty). }
  exists p. split; [done|]. unfold write. by rewrite Hp.
Qed.

Lemma read_field_written self p q f :
  write_fields self XmileSlider.fields = Some p →
  f ∈ XmileSlider.fields →
  has_type (field_value self f) (type f) = true →
  lexical_ok (field_value self f) →
  read_field (Elem q p.1 p.2) f = Some (present (field_value self f)).
Proof.
  intros Hp Hf Ht Hl. unfold read_field. cbn [attributes children].
  pose proof field_names_NoDup as Hnd.
  destruct (proj1 (Forall_forall _ _) fields_roles f Hf)
    as [[Ha [k Hk]]|(Ha & He & Hc)]; rewrite Ha; [|rewrite He].
  - rewrite (write_fields_attribute _ _ _ _ Hnd Hp Hf Ha).
    pose proof (scalar_roundtrip _ _ _ Hk Ht Hl) as Hs.
    destruct (scalar_text _) eqn:Es; [|by rewrite Hs].
    rewrite Hs. cbn. by erewrite scalar_text_present.
  - rewrite (write_fields_child _ _ _ _ Hnd Hp Hf Ha He).
    destruct (object_content _) as [c|] eqn:Ec; cbn.
    + pose proof (object_roundtrip _ _ (child_qname f) Hc Ht Hl) as Hs.
      rewrite Ec in Hs. rewrite Hs. cbn. by erewrite object_content_present.
    + pose proof (object_roundtrip _ _ (None, "") Hc Ht Hl) as Hs.
      rewrite Ec in Hs. by rewrite Hs.
Qed.

Lemma read_fields_spec e (val : Field → pyval) (l : list Field) :
  NoDup (name <$> l) →
  Forall (λ f, read_field e f = Some (present (val f))) l →
  ∃ kwargs, read_fields e l = Some kwargs ∧
    (∀ f, f ∈ l → kwargs !! name f = present (val f)) ∧
    (∀ n, n ∉ name <$> l → kwargs !! n = None).
Proof.
  induction l as [|g l IH]; intros Hnd Hall.
  - exists ∅. split; [done|]. split; [by intros f ?%elem_of_nil|done].
  - rewrite fmap_cons in Hnd. apply NoDup_cons in Hnd as [Hg Hnd].
    apply Forall_cons in Hall as [Hhead Hall].
    destruct (IH Hnd Hall) as (kw & Hkw & Hin & Hout).
    cbn [read_fields]. rewrite Hhead, Hkw. cbn. eexists. split; [done|]. split.
    + intros f [->|Hf]%elem_of_cons.
      * destruct (present (val g)); [apply lookup_insert_eq|by apply Hout].
      * assert (name g ≠ name f).
        { intros Heq. apply Hg. rewrite Heq. by apply list_elem_of_fmap_2. }
        destruct (present (val g)); [rewrite lookup_insert_ne by done|]; by apply Hin.
    + intros n [Hn Hl]%not_elem_of_cons.
      destruct (present (val g)); [rewrite lookup_insert_ne by done|]; by apply Hout.
Qed.


Lemma numeric_fields :
  Forall (λ f, name f ∉ data_model numeric ∨
               (is_attribute f = true ∧ kind_of (type f) = Some numeric ∧
                field_namespace f = None))
    XmileSlider.fields ∧
  Forall (λ n, n ∈ XmileSlider.field_names) (data_model numeric).
Proof. split; compute_done. Qed.

Lemma setattr_written self f v :
  f ∈ XmileSlider.fields →
  is_attribute f = true →
  has_type v (type f) = true →
  Forall (λ g, has_type (field_value self g) (type g) = true) XmileSlider.fields →
  ∃ self' e, setattr self (name f) v = Ok self' ∧
    getattr self' (name f) = Ok v ∧
    write self' = Some e ∧
    attributes e !! attribute_qname f = scalar_text v.
Proof.
  intros Hf Ha Hv Hty. eexists. 
  destruct (write_total (Object (<[name f := v]> (__dict__ self)))) as (p & Hp & Hw).
  { apply Forall_forall. intros g Hg. unfold field_value. cbn [__dict__].
    destruct (decide (name f = name g)) as [Heq|Hne].
    - rewrite Heq, lookup_insert_eq.
      assert (g = f) as ->; [|done].
      pose proof (find_field g Hg) as H1. pose proof (find_field f Hf) as H2.
      rewrite Heq in H2. congruence.
    - rewrite lookup_insert_ne by done.
      by apply (proj1 (Forall_forall _ _) Hty). }
  eexists. split; [reflexivity|]. split; [|split; [exact Hw|]].
  - unfold getattr. cbn [__dict__]. by rewrite lookup_insert_eq.
  - cbn [attributes].
    rewrite (write_fields_attribute _ _ _ _ field_names_NoDup Hp Hf Ha).
    unfold field_value. cbn [__dict__]. by rewrite lookup_insert_eq.
Qed.


End Slider.

Arguments PNone {_ _ _}.
Arguments PBool {_ _ _} b.
Arguments PInt {_ _ _} z.
Arguments PFloat {_ _ _} f.
Arguments PStr {_ _ _} s.
Arguments PFormat {_ _ _} o.
Arguments PEntity {_ _ _} o.
Arguments PResetTo {_ _ _} o.
Arguments Object {_ _ _} __dict__.
Arguments __dict__ {_ _ _} _.
Arguments __init__ {_ _ _} globals args kwargs.
Arguments getattr {_ _ _} globals self n.
Arguments setattr {_ _ _} self n v.
Arguments field_value {_ _ _} globals self f.
Arguments write {_ _ _ _ _ _ _} globals self.
Arguments read {_ _ _ _ _ _ _} globals e.


(** ** The declarations of the class *)

(** The string fields in declaration order. *)
Example names_of_kind_text_example :
  names_of_kind text =
  [ "conditional_entity"; "label_side"; "title"; "show_hover_tip"; "color";
    "font_weight"; "font_color"; "background"; "font_family"; "font_size" ].
Proof. vm_compute. reflexivity. Qed.

(** C2 (counterexample): the enumeration of the data model leaves out
    [conditional_entity], which
    the class declares as an optional string attribute: the string fields of
    the class are not the nine the data model lists, so the kinds do not
    match the enumeration. *)
Lemma data_model_omits_conditional_entity :
  XmileSlider.conditional_entity ∈ XmileSlider.fields ∧
  kind_of (type XmileSlider.conditional_entity) = Some text ∧
  ("conditional_entity" ∉ data_model text) ∧
  ¬ (∀ k, names_of_kind k ≡ₚ data_model k).
Proof.
  split; [|split; [|split]].
  - unfold XmileSlider.fields. rewrite !elem_of_cons. auto.
  - reflexivity.
  - compute_done.
  - intros Hall. specialize (Hall text). revert Hall. compute_done.
Qed.

(** C2 (amended): by their annotations the scalar fields of the class are the
    seven optional booleans, the seven optional integer-or-float numerics and
    the four optional integers the data model lists, and ten optional strings:
    the nine it lists and [conditional_entity]; these 28 are all the scalar
    fields, and the remaining fields are [format], [entity] and [reset_to]. *)
Theorem scalar_fields_enumerated :
  names_of_kind boolean ≡ₚ data_model boolean ∧
  names_of_kind numeric ≡ₚ data_model numeric ∧
  names_of_kind integer ≡ₚ data_model integer ∧
  names_of_kind text ≡ₚ "conditional_entity" :: data_model text ∧
  scalar_names ≡ₚ
    "conditional_entity" ::
      (data_model boolean ++ data_model numeric ++ data_model integer
         ++ data_model text)%list ∧
  name <$> filter (λ f, kind_of (type f) = None) XmileSlider.fields
    = ["format"; "entity"; "reset_to"].
Proof. repeat split; compute_done. Qed.

(** C3: the fields whose metadata carries a ["namespace"] entry are exactly
    [always_show_hover_tip], [show_hover_tip], [conditional_entity],
    [fancy_appearance] and [navigate_to]; the entry is the constant
    [ISEE_NAMESPACE] of [xmile_globals]; the metadata of every other field has
    no such entry. *)
Theorem vendor_namespace_fields :
  Forall (λ f, metadata f !! "namespace" =
               if bool_decide (name f ∈ vendor_fields)
               then Some (EGlobal "xmile_globals" "ISEE_NAMESPACE")
               else None)
    XmileSlider.fields ∧
  name <$> filter (λ f, is_Some (field_namespace f)) XmileSlider.fields
    ≡ₚ vendor_fields.
Proof. split; compute_done. Qed.

(** C4: the metadata of every field records one XML role under ["type"],
    ["Attribute"] or ["Element"]; the Element fields are exactly [format],
    [entity] and [reset_to], each annotated [Optional] of its record class
    with default [None]; every field of scalar type is an Attribute. *)
Theorem xml_roles :
  Forall (λ f, metadata f !! "type" = Some (EStr "Attribute") ∨
               metadata f !! "type" = Some (EStr "Element"))
    XmileSlider.fields ∧
  Forall (λ f, is_attribute f = negb (is_element f)) XmileSlider.fields ∧
  filter (λ f, is_element f = true) XmileSlider.fields
    = [XmileSlider.format; XmileSlider.entity; XmileSlider.reset_to] ∧
  (name <$> [XmileSlider.format; XmileSlider.entity; XmileSlider.reset_to]
     = ["format"; "entity"; "reset_to"] ∧
   type <$> [XmileSlider.format; XmileSlider.entity; XmileSlider.reset_to]
     = [Optional XmileFormat_t; Optional XmileEntity_t; Optional XmileResetTo_t] ∧
   default <$> [XmileSlider.format; XmileSlider.entity; XmileSlider.reset_to]
     = [ENone; ENone; ENone]) ∧
  Forall (λ f, is_attribute f = true)
    (filter (λ f, is_Some (kind_of (type f))) XmileSlider.fields).
Proof.
  split; [compute_done|]. split; [compute_done|].
  split; [vm_compute; reflexivity|]. split; [repeat split|compute_done].
Qed.

(** ** The development on examples *)



Lemma setattr_frame_witness :
  ∃ self' : XmileSlider unit string unit,
    setattr (Object ∅) "min" (PInt 5) = Ok self' ∧
    getattr sample_globals self' "min" = Ok (PInt 5) ∧
    getattr sample_globals self' "max" = getattr sample_globals (Object ∅) "max" ∧
    Forall (λ f, name f = "min" ∨
                 field_value sample_globals self' f
                 = field_value sample_globals (Object ∅) f)
      XmileSlider.fields.
Proof.
  apply (setattr_frame unit string unit sample_globals (Object ∅) "min" (PInt 5) "max").
  discriminate.
Defined.

Lemma construct_any_subset_witness :
  ∃ self : XmileSlider unit string unit,
    __init__ sample_globals [] {[ "min" := PInt 5; "vertical" := PBool true ]} = Ok self ∧
    Forall (λ f, getattr sample_globals self (name f) =
                 Ok (match ({[ "min" := PInt 5; "vertical" := PBool true ]}
                              : gmap string (pyval unit string unit)) !! name f with
                     | Some v => v
                     | None => PNone
                     end))
      XmileSlider.fields.
Proof.
  apply (proj2 (construct_any_subset unit string unit sample_globals)).
  compute_done.
Defined.


(** * Further properties of the generated class *)

From Stdlib Require FloatAxioms.

(** Float equality on the IEEE data: symmetric, and reflexive off NaN. *)
Lemma SFeqb_sym (x y : spec_float) : SFeqb x y = SFeqb y x.
Proof.
  unfold SFeqb, SFcompare.
  destruct x as [sx|sx| |sx mx ex], y as [sy|sy| |sy my ey]; try reflexivity;
    try (destruct sx; reflexivity); try (destruct sy; reflexivity);
    try (destruct sx, sy; reflexivity).
  change (Pos.compare_cont Eq mx my) with (Pos.compare mx my).
  change (Pos.compare_cont Eq my mx) with (Pos.compare my mx).
  rewrite (Z.compare_antisym ex ey), (Pos.compare_antisym mx my).
  destruct sx, sy; try reflexivity;
    destruct (ex ?= ey)%Z; cbn; try reflexivity;
    destruct (mx ?= my)%positive; reflexivity.
Qed.

Lemma SFeqb_refl (x : spec_float) : x ≠ S754_nan → SFeqb x x = true.
Proof.
  unfold SFeqb, SFcompare. intros Hx.
  destruct x as [sx|sx| |sx mx ex]; try reflexivity; [by destruct sx|done|].
  change (Pos.compare_cont Eq mx mx) with (Pos.compare mx mx).
  rewrite Z.compare_refl, Pos.compare_refl. by destruct sx.
Qed.

Lemma forallb_agree {A} (f g : A → bool) (l : list A) :
  (∀ x, x ∈ l → f x = g x) → forallb f l = forallb g l.
Proof.
  induction l as [|x l IH]; intros Hfg; [done|]. cbn.
  rewrite (Hfg x) by (apply elem_of_cons; by left).
  rewrite IH; [done|]. intros y Hy. apply Hfg, elem_of_cons. by right.
Qed.

Section Instances.

Context {XmileFormat XmileEntity XmileResetTo : Type}.
Context `{!Binding XmileFormat, !Binding XmileEntity, !Binding XmileResetTo}.
Variable globals : xmile_globals.

Local Abbreviation value := (pyval XmileFormat XmileEntity XmileResetTo).
Local Abbreviation slider := (XmileSlider XmileFormat XmileEntity XmileResetTo).
Local Abbreviation names := (list_to_set XmileSlider.field_names : gset string).

(** The instances a program gets by constructing a slider and assigning
    declared fields. *)
Inductive reachable : slider → Prop :=
| reachable_init kwargs self :
    __init__ globals [] kwargs = Ok self → reachable self
| reachable_setattr self f v self' :
    reachable self → f ∈ XmileSlider.fields →
    setattr self (name f) v = Ok self' → reachable self'.

(** A value that [==] relates to itself: any value but a float NaN, a nested
    record provided its own [__eq__] does. *)
Definition self_equal (v : value) : Prop :=
  match v with
  | PFloat x => Prim2SF x ≠ S754_nan
  | PFormat o => binding_eq o o = true
  | PEntity o => binding_eq o o = true
  | PResetTo o => binding_eq o o = true
  | _ => True
  end.

(** The keyword arguments hold values of the annotated types. *)
Definition typed_kwargs (kwargs : gmap string value) : Prop :=
  Forall (λ f, match kwargs !! name f with
               | Some v => has_type XmileFormat XmileEntity XmileResetTo v (type f) = true
               | None => True
               end) XmileSlider.fields.

Lemma field_of_name f g :
  f ∈ XmileSlider.fields → g ∈ XmileSlider.fields → name f = name g → f = g.
Proof.
  intros Hf Hg Heq.
  pose proof (find_field f Hf) as H1. pose proof (find_field g Hg) as H2.
  rewrite Heq in H1. congruence.
Qed.

Lemma unset_is_typed :
  Forall (λ f, has_type XmileFormat XmileEntity XmileResetTo PNone (type f) = true)
    XmileSlider.fields.
Proof. repeat constructor. Qed.

(** X1: every field is keyword-only, so the constructor raises [TypeError]
    exactly when it is given a positional argument or a keyword that is not
    a declared field, and returns an instance exactly when it is given no
    positional argument and only declared fields as keywords. *)
Theorem init_raises_exactly (args : list value) (kwargs : gmap string value) :
  Forall (λ f, kw_only f = true) XmileSlider.fields ∧
  (__init__ globals args kwargs = Raise TypeError ↔
     args ≠ [] ∨ ∃ n, n ∈ dom kwargs ∧ n ∉ XmileSlider.field_names) ∧
  ((∃ self, __init__ globals args kwargs = Ok self) ↔
     args = [] ∧ ∀ n, n ∈ dom kwargs → n ∈ XmileSlider.field_names).
Proof.
  split; [repeat constructor|].
  assert (Hsub : dom kwargs ⊆ names ↔ ∀ n, n ∈ dom kwargs → n ∈ XmileSlider.field_names).
  { split.
    - intros Hs n Hn. by apply (proj1 (elem_of_list_to_set (C:=gset string) _ _)), Hs.
    - intros Hs n Hn. by apply elem_of_list_to_set, Hs. }
  unfold __init__. destruct args as [|a args].
  - destruct (decide (dom kwargs ⊆ names)) as [Hd|Hd].
    + split; split.
      * discriminate.
      * intros [?|(n & Hn & Hno)]; [done|]. destruct Hno. by apply Hsub.
      * intros _. split; [done|]. by apply Hsub.
      * intros _. by eexists.
    + split; split.
      * intros _. right.
        destruct (decide (set_Forall (λ n, n ∈ XmileSlider.field_names) (dom kwargs)))
          as [Hall|Hex].
        -- destruct Hd. by apply Hsub.
        -- apply not_set_Forall_Exists in Hex; [|apply _].
           destruct Hex as (n & Hn & Hno). by exists n.
      * done.
      * intros [self Hs]. discriminate.
      * intros [_ Hs]. destruct Hd. by apply Hsub.
  - split; split.
    + intros _. by left.
    + done.
    + intros [self Hs]. discriminate.
    + intros [Hs _]. discriminate.
Qed.

(** X2: constructing with keywords gives the instance constructed without
    arguments with the keywords written over it: the [__dict__] is the
    keyword dictionary laid over the [__dict__] of the default instance. *)
Theorem init_overrides_defaults (kwargs : gmap string value) :
  dom kwargs ⊆ names →
  ∃ self self0,
    __init__ globals [] kwargs = Ok self ∧
    __init__ globals [] ∅ = Ok self0 ∧
    __dict__ self = kwargs ∪ __dict__ self0.
Proof.
  intros Hdom.
  destruct (init_ok _ _ _ globals kwargs Hdom) as (self & Hinit & Hd & Hget).
  destruct (init_ok XmileFormat XmileEntity XmileResetTo globals ∅)
    as (self0 & Hinit0 & Hd0 & Hget0).
  { rewrite dom_empty_L. apply empty_subseteq. }
  exists self, self0. split; [done|]. split; [done|].
  apply map_eq. intros n. rewrite lookup_union.
  destruct (decide (n ∈ XmileSlider.field_names)) as [Hn|Hn].
  - apply list_elem_of_fmap in Hn as (f & -> & Hf).
    rewrite (Hget f Hf), (Hget0 f Hf). unfold argument. rewrite lookup_empty.
    by destruct (kwargs !! name f).
  - assert (∀ s : slider, dom (__dict__ s) = names → __dict__ s !! n = None) as Hnone.
    { intros s Hs. apply not_elem_of_dom. rewrite Hs. by rewrite elem_of_list_to_set. }
    rewrite (Hnone self Hd), (Hnone self0 Hd0).
    assert (kwargs !! n = None) as ->; [|done].
    apply not_elem_of_dom. intros Hk. apply Hn.
    by apply (proj1 (elem_of_list_to_set (C:=gset string) _ _)), Hdom.
Qed.

(** X3: an instance obtained from the constructor by assigning declared
    fields, any values, has exactly the 31 declared fields as instance
    attributes, and reading a field returns the value stored in the instance
    (never the class-level default). *)
Theorem reachable_attributes (self : slider) :
  reachable self →
  dom (__dict__ self) = names ∧
  Forall (λ f, ∃ v, __dict__ self !! name f = Some v ∧
                    getattr globals self (name f) = Ok v) XmileSlider.fields.
Proof.
  intros Hr.
  assert (Hdom : dom (__dict__ self) = names).
  { induction Hr as [kwargs self Hinit|self f v self' _ IH Hf Hset].
    - unfold __init__ in Hinit. case_decide; [|discriminate].
      destruct (init_ok _ _ _ globals kwargs) as (s & Hs & Hd & _); [done|].
      unfold __init__ in Hs. rewrite decide_True in Hs by done. congruence.
    - injection Hset as <-. cbn [__dict__]. rewrite dom_insert_L, IH.
      apply elem_of_field_names in Hf.
      assert (name f ∈ names) as Hin by by apply elem_of_list_to_set.
      by apply subseteq_union_1_L, singleton_subseteq_l. }
  split; [exact Hdom|]. apply Forall_forall. intros f Hf.
  assert (is_Some (__dict__ self !! name f)) as [v Hv].
  { apply elem_of_dom. rewrite Hdom. by apply elem_of_list_to_set, elem_of_field_names. }
  exists v. split; [done|]. unfold getattr. by rewrite Hv.
Qed.

(** X4: constructing with keywords that hold values of the annotated types
    gives an instance that conforms to the annotations; the fields left out
    are [None], which every annotation admits since each is [Optional]. *)
Theorem typed_init_conforms (kwargs : gmap string value) :
  dom kwargs ⊆ names → typed_kwargs kwargs →
  ∃ self, __init__ globals [] kwargs = Ok self ∧
          conforms XmileFormat XmileEntity XmileResetTo globals self.
Proof.
  intros Hdom Hty.
  destruct (init_ok _ _ _ globals kwargs Hdom) as (self & Hinit & Hd & Hget).
  exists self. split; [done|]. split; [done|].
  apply Forall_forall. intros f Hf. unfold field_value. rewrite (Hget f Hf).
  unfold argument.
  pose proof (proj1 (Forall_forall _ _) Hty f Hf) as Hv. cbv beta in Hv.
  destruct (kwargs !! name f); [done|].
  rewrite field_default_None by done.
  by apply (proj1 (Forall_forall _ _) unset_is_typed).
Qed.

(** X5: assigning a declared field a value of its annotated type keeps an
    instance conforming to the annotations. *)
Theorem typed_setattr_conforms (self : slider) f (v : value) :
  conforms XmileFormat XmileEntity XmileResetTo globals self →
  f ∈ XmileSlider.fields →
  has_type XmileFormat XmileEntity XmileResetTo v (type f) = true →
  ∃ self', setattr self (name f) v = Ok self' ∧
           conforms XmileFormat XmileEntity XmileResetTo globals self'.
Proof.
  intros [Hd Hty] Hf Hv. eexists. split; [reflexivity|]. split.
  - cbn [__dict__]. rewrite dom_insert_L, Hd.
    assert (name f ∈ names) as Hin
      by by apply elem_of_list_to_set, elem_of_field_names.
    by apply subseteq_union_1_L, singleton_subseteq_l.
  - apply Forall_forall. intros g Hg. unfold field_value. cbn [__dict__].
    destruct (decide (name f = name g)) as [Heq|Hne].
    + rewrite Heq, lookup_insert_eq.
      by rewrite <- (field_of_name f g Hf Hg Heq).
    + rewrite lookup_insert_ne by done.
      by apply (proj1 (Forall_forall _ _) Hty).
Qed.



Lemma py_eq_sym (a b : value) :
  (∀ o o' : XmileFormat, binding_eq o o' = binding_eq o' o) →
  (∀ o o' : XmileEntity, binding_eq o o' = binding_eq o' o) →
  (∀ o o' : XmileResetTo, binding_eq o o' = binding_eq o' o) →
  py_eq _ _ _ a b = py_eq _ _ _ b a.
Proof.
  intros HF HE HR. destruct a, b; cbn; try reflexivity; auto.
  - by destruct b, b0.
  - apply Z.eqb_sym.
  - by rewrite !FloatAxioms.eqb_spec, SFeqb_sym.
  - apply String.eqb_sym.
Qed.

Lemma py_eq_refl (v : value) : self_equal v → py_eq _ _ _ v v = true.
Proof.
  destruct v; cbn; try done.
  - intros _. by destruct b.
  - intros _. apply Z.eqb_refl.
  - intros Hx. rewrite FloatAxioms.eqb_spec. by apply SFeqb_refl.
  - intros _. apply String.eqb_refl.
Qed.

(** X8: the generated [__eq__] is symmetric, provided the [__eq__] of the
    three nested record classes is. *)
Theorem eq_symmetric (a b : slider) :
  (∀ o o' : XmileFormat, binding_eq o o' = binding_eq o' o) →
  (∀ o o' : XmileEntity, binding_eq o o' = binding_eq o' o) →
  (∀ o o' : XmileResetTo, binding_eq o o' = binding_eq o' o) →
  XmileSlider_eq _ _ _ globals a b = XmileSlider_eq _ _ _ globals b a.
Proof.
  intros HF HE HR. unfold XmileSlider_eq. apply forallb_agree.
  intros f _. by apply py_eq_sym.
Qed.


(** X10: two instances whose declared fields hold the same values compare
    equal, provided no field holds a float NaN and the nested records they
    hold equal themselves. *)
Theorem same_values_equal (a b : slider) :
  Forall (λ f, field_value globals a f = field_value globals b f ∧
               self_equal (field_value globals a f)) XmileSlider.fields →
  XmileSlider_eq _ _ _ globals a b = true.
Proof.
  intros Hall. unfold XmileSlider_eq. apply forallb_forall.
  intros f Hf%list_elem_of_In.
  destruct (proj1 (Forall_forall _ _) Hall f Hf) as [Hv Hs].
  rewrite <- Hv. by apply py_eq_refl.
Qed.

End Instances.

(** X11: of the seven integer-or-float fields, [increment], [width],
    [height], [max] and [min] are annotated [Union[int, float]], while [y] and
    [x] are annotated [Union[float, int]], float first. *)
Theorem numeric_union_order :
  name <$> filter (λ f, pytype_eqb (type f) (Optional (Union [t_int; t_float])) = true)
             XmileSlider.fields
    = ["increment"; "width"; "height"; "max"; "min"] ∧
  name <$> filter (λ f, pytype_eqb (type f) (Optional (Union [t_float; t_int])) = true)
             XmileSlider.fields
    = ["y"; "x"].
Proof. split; vm_compute; reflexivity. Qed.

(** ** The further properties on examples *)

Lemma init_overrides_defaults_witness :
  ∃ self self0 : XmileSlider unit string unit,
    __init__ sample_globals [] {[ "min" := PInt 5; "title" := PStr "Rate" ]} = Ok self ∧
    __init__ sample_globals [] ∅ = Ok self0 ∧
    __dict__ self = {[ "min" := PInt 5; "title" := PStr "Rate" ]} ∪ __dict__ self0.
Proof.
  apply (@init_overrides_defaults unit string unit sample_globals).
  compute_done.
Defined.

Lemma reachable_attributes_witness :
  let self0 : XmileSlider unit string unit :=
    match __init__ sample_globals [] {[ "uid" := PStr "seven" ]} with
    | Ok self => self
    | Raise _ => Object ∅
    end in
  let self := Object (<["min" := PInt 5]> (__dict__ self0)) in
  dom (__dict__ self) = (list_to_set XmileSlider.field_names : gset string) ∧
  Forall (λ f, ∃ v, __dict__ self !! name f = Some v ∧
                    getattr sample_globals self (name f) = Ok v) XmileSlider.fields.
Proof.
  intros self0 self.
  apply (@reachable_attributes unit string unit sample_globals self).
  apply (reachable_setattr sample_globals self0 XmileSlider.min (PInt 5)).
  - apply (reachable_init sample_globals {[ "uid" := PStr "seven" ]}).
    vm_compute. reflexivity.
  - unfold XmileSlider.fields. rewrite !elem_of_cons. auto 40.
  - reflexivity.
Defined.

Lemma typed_init_conforms_witness :
  ∃ self : XmileSlider unit string unit,
    __init__ sample_globals []
      {[ "min" := PFloat 5.5; "uid" := PInt 7; "entity" := PEntity "Births" ]} = Ok self ∧
    conforms unit string unit sample_globals self.
Proof.
  apply (@typed_init_conforms unit string unit sample_globals).
  - compute_done.
  - repeat (constructor; [vm_compute; auto|]). constructor.
Defined.

Lemma typed_setattr_conforms_witness :
  let self : XmileSlider unit string unit :=
    match __init__ sample_globals [] {[ "uid" := PInt 7 ]} with
    | Ok self => self
    | Raise _ => Object ∅
    end in
  ∃ self', setattr self "min" (PFloat 5.5) = Ok self' ∧
           conforms unit string unit sample_globals self'.
Proof.
  intros self.
  apply (@typed_setattr_conforms unit string unit sample_globals self XmileSlider.min).
  - refine (conj _ _); [compute_done|].
    repeat (constructor; [vm_compute; reflexivity|]). constructor.
  - unfold XmileSlider.fields. rewrite !elem_of_cons. auto 40.
  - reflexivity.
Defined.


Lemma eq_symmetric_witness :
  XmileSlider_eq unit string unit sample_globals
    (Object {[ "min" := PInt 5; "entity" := PEntity "Births" ]})
    (Object {[ "min" := PFloat 5; "entity" := PEntity "Births" ]})
  = XmileSlider_eq unit string unit sample_globals
      (Object {[ "min" := PFloat 5; "entity" := PEntity "Births" ]})
      (Object {[ "min" := PInt 5; "entity" := PEntity "Births" ]}).
Proof.
  apply (@eq_symmetric unit string unit _ _ _ sample_globals).
  - reflexivity.
  - intros o o'. apply String.eqb_sym.
  - reflexivity.
Defined.


Lemma same_values_equal_witness :
  XmileSlider_eq unit string unit sample_globals
    (Object {[ "min" := PFloat 5.5; "title" := PStr "Rate" ]})
    (Object {[ "title" := PStr "Rate"; "min" := PFloat 5.5; "note" := PNone ]})
  = true.
Proof.
  apply (@same_values_equal unit string unit _ _ _ sample_globals).
  repeat (constructor; [split; vm_compute; (reflexivity || exact I || discriminate)|]).
  constructor.
Defined.
